(** * Offline dependency fetcher (offlineDependencies.py)

    A shallow embedding of the script that downloads four JavaScript
    libraries into the directory [libs/], and the properties of its
    specification.

    The script talks to three parts of the outside world: the file system,
    the network and the console.  They are modelled by
    - a finite map from paths to nodes (what [os.path.exists] sees),
    - a chronological trace of the calls the script issues, and
    - a [World] of oracles that decides how each fallible call ends.
    Python exceptions are carried by an exception-and-state monad: the
    effects that happened before an exception was raised stay in the state. *)

From Stdlib Require Import ZArith List Lia Ascii.
From stdpp Require Import base option list strings pretty gmap.

Open Scope string_scope.
Open Scope list_scope.
Open Scope Z_scope.

(* ===================================================================== *)
(** ** The outside world *)
(* ===================================================================== *)

(** Bytes objects ([response.content]) are lists of bytes. *)
Abbreviation bytes := (list Byte.byte) (only parsing).

(** What a path names. *)
Inductive node : Type :=
  | Dir
  | File (data : bytes).

(** One call that leaves the process, in the order the script issues it. *)
Inductive event : Type :=
  | EPrint (line : string)               (* print(line) *)
  | EMakedirs (path : string)            (* os.makedirs(path) *)
  | EGet (url : string)                  (* requests.get(url) *)
  | EOpenWb (path : string)              (* open(path, "wb") *)
  | EWrite (path : string) (data : bytes). (* f.write(data) *)

(** The object returned by [requests.get]. *)
Record Response : Type := mkResponse {
  status_code : Z;
  content : bytes
}.

(** How a [requests.get] call ends: with a response (of any status), or
    with an exception whose text is [str(e)]. *)
Inductive get_result : Type :=
  | Responds (r : Response)
  | GetRaises (msg : string).

(** The oracles.  [http_get n url] is the fate of the GET for [url] issued
    after [n] earlier GETs of the process; the three fault oracles say
    whether the operating system refuses a call ([Some] of the exception
    text).  A refused write leaves the first [k] bytes in the file. *)
Record World : Type := mkWorld {
  http_get : nat -> string -> get_result;
  makedirs_fault : string -> option string;
  open_fault : string -> option string;
  write_fault : string -> bytes -> option (nat * string)
}.

Record State : Type := mkState {
  fs : gmap string node;
  trace : list event
}.

(* ===================================================================== *)
(** ** Exceptions and state *)
(* ===================================================================== *)

Inductive outcome (A : Type) : Type :=
  | Ok (a : A)
  | Raised (msg : string).
Arguments Ok {A} a.
Arguments Raised {A} msg.

Definition M (A : Type) : Type := State -> outcome A * State.

Definition ret {A} (a : A) : M A := fun st => (Ok a, st).

Definition bind {A B} (c : M A) (k : A -> M B) : M B :=
  fun st =>
    match c st with
    | (Ok a, st') => k a st'
    | (Raised msg, st') => (Raised msg, st')
    end.

Definition raise {A} (msg : string) : M A := fun st => (Raised msg, st).

(** [try: body except Exception as e: handler e].  Every exception of the
    model is an instance of [Exception], as are the exceptions of
    [requests] and the [OSError]s of [open] and [write], so the handler
    takes them all; [msg] is [str(e)].  Asynchronous interruptions
    ([KeyboardInterrupt], [SystemExit]) are outside the model. *)
Definition try_except {A} (body : M A) (handler : string -> M A) : M A :=
  fun st =>
    match body st with
    | (Ok a, st') => (Ok a, st')
    | (Raised msg, st') => handler msg st'
    end.

(** Sequencing, written as in stdpp: [x ← c; k] and [c;; k]. *)
Declare Scope py_scope.
Delimit Scope py_scope with py.
Notation "x ← c ; k" := (bind c (fun x => k))
  (at level 20, c at level 100, k at level 200, only parsing) : py_scope.
Notation "c ;; k" := (bind c (fun _ => k))
  (at level 100, k at level 200, only parsing, right associativity) : py_scope.
Open Scope py_scope.

Definition emit (ev : event) : M unit :=
  fun st => (Ok tt, {| fs := fs st; trace := trace st ++ [ev] |}).

Definition set_node (path : string) (n : node) : M unit :=
  fun st => (Ok tt, {| fs := <[path := n]> (fs st); trace := trace st |}).

(** [for x in xs: body x] *)
Fixpoint for_each {A} (xs : list A) (body : A -> M unit) : M unit :=
  match xs with
  | [] => ret tt
  | x :: xs' => (body x;; for_each xs' body)
  end.

(* ===================================================================== *)
(** ** The library calls the script makes *)
(* ===================================================================== *)

Definition print (line : string) : M unit := emit (EPrint line).

Definition exists_in (m : gmap string node) (path : string) : bool :=
  match m !! path with
  | Some _ => true
  | None => false
  end.

(** [os.path.exists(path)] *)
Definition os_path_exists (path : string) : M bool :=
  fun st => (Ok (exists_in (fs st) path), st).

Definition starts_with_slash (s : string) : bool :=
  match s with
  | String c _ => Ascii.eqb c "/"%char
  | EmptyString => false
  end.

Fixpoint ends_with_slash (s : string) : bool :=
  match s with
  | EmptyString => false
  | String c EmptyString => Ascii.eqb c "/"%char
  | String _ s' => ends_with_slash s'
  end.

(** [os.path.join(a, b)] of posixpath, for two components: an absolute [b]
    replaces [a]; otherwise the two are joined by exactly one slash. *)
Definition os_path_join (a b : string) : string :=
  if starts_with_slash b then b
  else if (String.eqb a "" || ends_with_slash a)%bool then a +:+ b
  else a +:+ "/" +:+ b.

(** [os.makedirs(path)] (no [exist_ok]): refuses a path that exists. *)
Definition os_makedirs (w : World) (path : string) : M unit :=
  (emit (EMakedirs path);;
   present ← os_path_exists path;
   if present then raise ("[Errno 17] File exists: '" +:+ path +:+ "'")
   else match makedirs_fault w path with
        | Some msg => raise msg
        | None => set_node path Dir
        end).

Fixpoint count_gets (t : list event) : nat :=
  match t with
  | [] => O
  | EGet _ :: t' => S (count_gets t')
  | _ :: t' => count_gets t'
  end.

(** [requests.get(url)]: the call is issued, then the world answers. *)
Definition requests_get (w : World) (url : string) : M Response :=
  fun st =>
    let st' := {| fs := fs st; trace := trace st ++ [EGet url] |} in
    match http_get w (count_gets (trace st)) url with
    | Responds r => (Ok r, st')
    | GetRaises msg => (Raised msg, st')
    end.

(** [with open(path, "wb") as f: f.write(data)].  Opening creates or
    truncates the file; a write that raises leaves what reached the disk
    before; the handle is closed on both ways out. *)
Definition write_binary (w : World) (path : string) (data : bytes) : M unit :=
  (emit (EOpenWb path);;
   match open_fault w path with
   | Some msg => raise msg
   | None =>
       set_node path (File []);;
       emit (EWrite path data);;
       match write_fault w path data with
       | Some (k, msg) => set_node path (File (take k data));; raise msg
       | None => set_node path (File data)
       end
   end).

(* ===================================================================== *)
(** ** The script *)
(* ===================================================================== *)

(** The dict [LIBRARIES], in definition order (the order [.items()]
    iterates in). *)
Definition LIBRARIES : list (string * string) :=
  [ ("react.js", "https://unpkg.com/react@18/umd/react.development.js");
    ("react-dom.js", "https://unpkg.com/react-dom@18/umd/react-dom.development.js");
    ("babel.js", "https://unpkg.com/@babel/standalone/babel.min.js");
    ("tailwind.js", "https://cdn.tailwindcss.com") ].

Definition closing_message : string :=
  String "010"%char "Dependencies ready! You can now open 'index.html' offline.".

(** Lines 15-17 of [download_libs]: create [libs] when it is not there. *)
Definition ensure_directory (w : World) : M unit :=
  (present ← os_path_exists "libs";
   if negb present then
     os_makedirs w "libs";;
     print "Created directory: libs/"
   else ret tt).

(** Lines 22-37: the body of the loop, for one item of the dict. *)
Definition process_entry (w : World) (entry : string * string) : M unit :=
  let '(filename, url) := entry in
  let filepath := os_path_join "libs" filename in
  (present ← os_path_exists filepath;
   if present then
     print (filename +:+ " already exists. Skipping.")
   else
     print ("Downloading " +:+ filename +:+ "...");;
     try_except
       (response ← requests_get w url;
        if status_code response =? 200 then
          write_binary w filepath (content response);;
          print ("Saved " +:+ filename)
        else
          print ("Failed to download " +:+ filename +:+ ": Status "
                   +:+ pretty (status_code response)))
       (fun e => print ("Error downloading " +:+ filename +:+ ": " +:+ e))).

(** Lines 19-39: the announcement, the loop and the closing line, over
    any dict of libraries. *)
Definition fetch_all (libs : list (string * string)) (w : World) : M unit :=
  (print "Starting download of dependencies...";;
   for_each libs (process_entry w);;
   print closing_message).

Definition download_libs (w : World) : M unit :=
  (ensure_directory w;; fetch_all LIBRARIES w).

(** [if __name__ == "__main__": download_libs()]: the exit status of the
    process is 0 when the call returns and 1 when an exception escapes. *)
Definition main (w : World) (st : State) : Z * State :=
  match download_libs w st with
  | (Ok _, st') => (0, st')
  | (Raised _, st') => (1, st')
  end.

(* ===================================================================== *)
(** ** Vocabulary of the statements *)
(* ===================================================================== *)

(** The state a computation leaves, whether it returned or raised. *)
Definition run {A} (c : M A) (st : State) : State := snd (c st).

(** Whether a computation returned normally. *)
Definition returns {A} (c : M A) (st : State) : Prop :=
  exists a, fst (c st) = Ok a.

(** The target path of an entry (line 22). *)
Definition target (filename : string) : string := os_path_join "libs" filename.

(** [st] with more calls on its trace, and the same file system. *)
Definition logged (st : State) (evs : list event) : State :=
  {| fs := fs st; trace := trace st ++ evs |}.

Definition starting : event := EPrint "Starting download of dependencies...".
Definition downloading (filename : string) : event :=
  EPrint ("Downloading " +:+ filename +:+ "...").
Definition error_line (filename msg : string) : event :=
  EPrint ("Error downloading " +:+ filename +:+ ": " +:+ msg).
Definition failed_line (filename : string) (code : Z) : event :=
  EPrint ("Failed to download " +:+ filename +:+ ": Status " +:+ pretty code).
Definition saved_line (filename : string) : event :=
  EPrint ("Saved " +:+ filename).
Definition skipping_line (filename : string) : event :=
  EPrint (filename +:+ " already exists. Skipping.").

(** The state in which the loop reaches the entry that follows [pre]. *)
Definition entering (w : World) (pre : list (string * string)) (st0 : State)
  : State :=
  run (print "Starting download of dependencies...";;
       for_each pre (process_entry w)) st0.

(** What is left of the batch once an entry is done: the entries after it
    and the closing line. *)
Definition resume (w : World) (post : list (string * string)) : M unit :=
  for_each post (process_entry w);; print closing_message.

(** The URLs of the GETs on a trace, in order. *)
Fixpoint requested (t : list event) : list string :=
  match t with
  | [] => []
  | EGet url :: t' => url :: requested t'
  | _ :: t' => requested t'
  end.

(** The calls an entry can issue: its own five lines, the GET of its URL,
    and the opening and writing of its target. *)
Definition belongs_to (entry : string * string) (ev : event) : Prop :=
  match ev with
  | EPrint _ =>
      ev = skipping_line (fst entry) \/ ev = downloading (fst entry) \/
      ev = saved_line (fst entry) \/
      (exists code, ev = failed_line (fst entry) code) \/
      (exists msg, ev = error_line (fst entry) msg)
  | EGet url => url = snd entry
  | EOpenWb path => path = target (fst entry)
  | EWrite path _ => path = target (fst entry)
  | EMakedirs _ => False
  end.

(** A block of calls issued for one entry: it opens with the entry's
    "already exists" or "Downloading" line and holds only calls of that
    entry. *)
Definition block_of (entry : string * string) (b : list event) : Prop :=
  (head b = Some (skipping_line (fst entry)) \/
   head b = Some (downloading (fst entry))) /\
  Forall (belongs_to entry) b.

(** Whether an outcome is a normal return. *)
Definition returned {A} (o : outcome A) : bool :=
  match o with
  | Ok _ => true
  | Raised _ => false
  end.

(** The entries whose target is absent from a file system. *)
Definition absent_entries (m : gmap string node)
    (libs : list (string * string)) : list (string * string) :=
  List.filter (fun e => negb (exists_in m (target (fst e)))) libs.

(** The six ways through the loop body, as a relation between the state
    before and the state after one entry. *)
Inductive entry_step (w : World) (filename url : string) (st : State)
  : State -> Prop :=
  | step_skip :
      exists_in (fs st) (target filename) = true ->
      entry_step w filename url st (logged st [skipping_line filename])
  | step_get_raises msg :
      exists_in (fs st) (target filename) = false ->
      http_get w (count_gets (trace st)) url = GetRaises msg ->
      entry_step w filename url st
        (logged st [downloading filename; EGet url; error_line filename msg])
  | step_status r :
      exists_in (fs st) (target filename) = false ->
      http_get w (count_gets (trace st)) url = Responds r ->
      status_code r <> 200 ->
      entry_step w filename url st
        (logged st [downloading filename; EGet url;
                    failed_line filename (status_code r)])
  | step_open_raises r msg :
      exists_in (fs st) (target filename) = false ->
      http_get w (count_gets (trace st)) url = Responds r ->
      status_code r = 200 ->
      open_fault w (target filename) = Some msg ->
      entry_step w filename url st
        (logged st [downloading filename; EGet url;
                    EOpenWb (target filename); error_line filename msg])
  | step_write_raises r k msg :
      exists_in (fs st) (target filename) = false ->
      http_get w (count_gets (trace st)) url = Responds r ->
      status_code r = 200 ->
      open_fault w (target filename) = None ->
      write_fault w (target filename) (content r) = Some (k, msg) ->
      entry_step w filename url st
        {| fs := <[target filename := File (take k (content r))]> (fs st);
           trace := trace st ++
             [downloading filename; EGet url; EOpenWb (target filename);
              EWrite (target filename) (content r);
              error_line filename msg] |}
  | step_saved r :
      exists_in (fs st) (target filename) = false ->
      http_get w (count_gets (trace st)) url = Responds r ->
      status_code r = 200 ->
      open_fault w (target filename) = None ->
      write_fault w (target filename) (content r) = None ->
      entry_step w filename url st
        {| fs := <[target filename := File (content r)]> (fs st);
           trace := trace st ++
             [downloading filename; EGet url; EOpenWb (target filename);
              EWrite (target filename) (content r);
              saved_line filename] |}.

(* ===================================================================== *)
(** ** Sample worlds and states *)
(* ===================================================================== *)

Definition no_fault : string -> option string := fun _ => None.
Definition no_write_fault : string -> bytes -> option (nat * string) :=
  fun _ _ => None.

Definition sample_body : bytes := [Byte.x2f; Byte.x2f; Byte.x6f; Byte.x6b].

(** Every GET answers 200 with [sample_body]; the disk accepts everything. *)
Definition w_ok : World :=
  mkWorld (fun _ _ => Responds (mkResponse 200 sample_body))
          no_fault no_fault no_write_fault.

(** Every GET answers 404. *)
Definition w_404 : World :=
  mkWorld (fun _ _ => Responds (mkResponse 404 []))
          no_fault no_fault no_write_fault.

(** No network: every GET raises. *)
Definition w_offline : World :=
  mkWorld (fun _ _ => GetRaises "Connection refused")
          no_fault no_fault no_write_fault.

(** The network is fine but [libs/] cannot be written to. *)
Definition w_readonly : World :=
  mkWorld (fun _ _ => Responds (mkResponse 200 sample_body))
          no_fault (fun _ => Some "[Errno 13] Permission denied")
          no_write_fault.

(** The disk fills up after two bytes of every write. *)
Definition w_diskfull : World :=
  mkWorld (fun _ _ => Responds (mkResponse 200 sample_body))
          no_fault no_fault
          (fun _ _ => Some (2%nat, "[Errno 28] No space left on device")).

(** The working directory refuses new directories. *)
Definition w_nomkdir : World :=
  mkWorld (fun _ _ => Responds (mkResponse 200 sample_body))
          (fun _ => Some "[Errno 13] Permission denied: 'libs'")
          no_fault no_write_fault.

Definition st_empty : State := {| fs := ∅; trace := [] |}.

(** [libs/] is there and empty. *)
Definition st_libs : State := {| fs := {["libs" := Dir]}; trace := [] |}.

(** [libs/react.js] has been downloaded before. *)
Definition st_cached : State :=
  {| fs := <["libs/react.js" := File sample_body]> {["libs" := Dir]};
     trace := [] |}.

Definition react_url : string :=
  "https://unpkg.com/react@18/umd/react.development.js".

Definition react_entry : string * string := ("react.js", react_url).
Definition react_dom_entry : string * string :=
  ("react-dom.js", "https://unpkg.com/react-dom@18/umd/react-dom.development.js").
Definition babel_entry : string * string :=
  ("babel.js", "https://unpkg.com/@babel/standalone/babel.min.js").
Definition tailwind_entry : string * string :=
  ("tailwind.js", "https://cdn.tailwindcss.com").

Definition after_react : list (string * string) :=
  [ ("react-dom.js", "https://unpkg.com/react-dom@18/umd/react-dom.development.js");
    ("babel.js", "https://unpkg.com/@babel/standalone/babel.min.js");
    ("tailwind.js", "https://cdn.tailwindcss.com") ].

(* ===================================================================== *)
(** ** Basic facts *)
(* ===================================================================== *)

Lemma count_gets_app (t1 t2 : list event) :
  count_gets (t1 ++ t2) = (count_gets t1 + count_gets t2)%nat.
Proof.
  induction t1 as [|ev t1 IH]; simpl; [reflexivity|].
  destruct ev; simpl; rewrite IH; reflexivity.
Qed.

Lemma requested_app (t1 t2 : list event) :
  requested (t1 ++ t2) = requested t1 ++ requested t2.
Proof.
  induction t1 as [|ev t1 IH]; simpl; [reflexivity|].
  destruct ev; simpl; rewrite IH; reflexivity.
Qed.

Lemma count_gets_requested (t : list event) :
  count_gets t = length (requested t).
Proof.
  induction t as [|ev t IH]; simpl; [reflexivity|].
  destruct ev; simpl; rewrite IH; reflexivity.
Qed.

Lemma exists_in_true (m : gmap string node) (p : string) :
  exists_in m p = true <-> is_Some (m !! p).
Proof.
  unfold exists_in. destruct (m !! p) as [n|]; split; intros H;
    try reflexivity; try discriminate; eauto.
  destruct H as [n H]; discriminate.
Qed.

Lemma exists_in_false (m : gmap string node) (p : string) :
  exists_in m p = false <-> m !! p = None.
Proof.
  unfold exists_in. destruct (m !! p) as [n|]; split; intros H;
    try reflexivity; try discriminate.
Qed.

Lemma exists_in_insert (m : gmap string node) (p : string) (n : node) :
  exists_in (<[p := n]> m) p = true.
Proof. unfold exists_in. by rewrite lookup_insert_eq. Qed.

(** A relative file name lands in [libs/]. *)
Lemma target_relative (f : string) :
  starts_with_slash f = false -> target f = "libs/" +:+ f.
Proof. unfold target, os_path_join. intros ->. reflexivity. Qed.

(** Two different file names never share a target path. *)
Lemma target_inj (f g : string) : target f = target g -> f = g.
Proof.
  unfold target, os_path_join. simpl.
  destruct (starts_with_slash f) eqn:Hf, (starts_with_slash g) eqn:Hg;
    intros H; try (injection H; auto; fail); try assumption; subst.
  - simpl in Hf. discriminate.
  - simpl in Hg. discriminate.
Qed.

(* ===================================================================== *)
(** ** One entry, case by case *)
(* ===================================================================== *)

Ltac py_unfold :=
  unfold process_entry, ensure_directory, write_binary, requests_get,
    os_makedirs, try_except, os_path_exists, print, emit, set_node,
    raise, bind, ret, logged, target, starting, downloading, error_line,
    failed_line, saved_line, skipping_line in *; simpl in *.

Ltac after_get Hget :=
  rewrite count_gets_app, Nat.add_0_r, Hget; simpl.

Section OneEntry.
Variable w : World.
Variables filename url : string.
Variable st : State.

Lemma process_entry_skip :
  exists_in (fs st) (target filename) = true ->
  process_entry w (filename, url) st
    = (Ok tt, logged st [skipping_line filename]).
Proof. intros H. py_unfold. rewrite H. reflexivity. Qed.

Lemma process_entry_get_raises (msg : string) :
  exists_in (fs st) (target filename) = false ->
  http_get w (count_gets (trace st)) url = GetRaises msg ->
  process_entry w (filename, url) st
    = (Ok tt, logged st [downloading filename; EGet url;
                         error_line filename msg]).
Proof.
  intros H Hg. py_unfold. rewrite H. after_get Hg.
  rewrite <- !app_assoc. reflexivity.
Qed.

Lemma process_entry_status (r : Response) :
  exists_in (fs st) (target filename) = false ->
  http_get w (count_gets (trace st)) url = Responds r ->
  status_code r <> 200 ->
  process_entry w (filename, url) st
    = (Ok tt, logged st [downloading filename; EGet url;
                         failed_line filename (status_code r)]).
Proof.
  intros H Hg Hs. py_unfold. rewrite H. after_get Hg.
  apply Z.eqb_neq in Hs. rewrite Hs. simpl.
  rewrite <- !app_assoc. reflexivity.
Qed.

Lemma process_entry_open_raises (r : Response) (msg : string) :
  exists_in (fs st) (target filename) = false ->
  http_get w (count_gets (trace st)) url = Responds r ->
  status_code r = 200 ->
  open_fault w (target filename) = Some msg ->
  process_entry w (filename, url) st
    = (Ok tt, logged st [downloading filename; EGet url;
                         EOpenWb (target filename);
                         error_line filename msg]).
Proof.
  intros H Hg Hs Ho. py_unfold. rewrite H. after_get Hg.
  rewrite Hs. simpl. rewrite Ho. simpl.
  rewrite <- !app_assoc. reflexivity.
Qed.

Lemma process_entry_write_raises (r : Response) (k : nat) (msg : string) :
  exists_in (fs st) (target filename) = false ->
  http_get w (count_gets (trace st)) url = Responds r ->
  status_code r = 200 ->
  open_fault w (target filename) = None ->
  write_fault w (target filename) (content r) = Some (k, msg) ->
  process_entry w (filename, url) st =
    (Ok tt,
     {| fs := <[target filename := File (take k (content r))]> (fs st);
        trace := trace st ++
          [downloading filename; EGet url; EOpenWb (target filename);
           EWrite (target filename) (content r);
           error_line filename msg] |}).
Proof.
  intros H Hg Hs Ho Hw. py_unfold. rewrite H. after_get Hg.
  rewrite Hs. simpl. rewrite Ho. simpl. rewrite Hw. simpl.
  rewrite insert_insert_eq, <- !app_assoc. reflexivity.
Qed.

Lemma process_entry_saved (r : Response) :
  exists_in (fs st) (target filename) = false ->
  http_get w (count_gets (trace st)) url = Responds r ->
  status_code r = 200 ->
  open_fault w (target filename) = None ->
  write_fault w (target filename) (content r) = None ->
  process_entry w (filename, url) st =
    (Ok tt,
     {| fs := <[target filename := File (content r)]> (fs st);
        trace := trace st ++
          [downloading filename; EGet url; EOpenWb (target filename);
           EWrite (target filename) (content r);
           saved_line filename] |}).
Proof.
  intros H Hg Hs Ho Hw. py_unfold. rewrite H. after_get Hg.
  rewrite Hs. simpl. rewrite Ho. simpl. rewrite Hw. simpl.
  rewrite insert_insert_eq, <- !app_assoc. reflexivity.
Qed.

(** Whatever the world does, the loop body returns normally, along one
    of the six ways. *)
Lemma process_entry_sound :
  exists st', process_entry w (filename, url) st = (Ok tt, st') /\
              entry_step w filename url st st'.
Proof.
  destruct (exists_in (fs st) (target filename)) eqn:Hex.
  { eexists. split; [by apply process_entry_skip|by constructor]. }
  destruct (http_get w (count_gets (trace st)) url) as [r|msg] eqn:Hget.
  2: { eexists. split; [by eapply process_entry_get_raises|].
       by apply step_get_raises. }
  destruct (Z.eq_dec (status_code r) 200) as [Hs|Hs].
  2: { eexists. split; [by eapply process_entry_status|].
       by apply step_status. }
  destruct (open_fault w (target filename)) as [msg|] eqn:Ho.
  { eexists. split; [by eapply process_entry_open_raises|].
    by eapply step_open_raises. }
  destruct (write_fault w (target filename) (content r))
    as [[k msg]|] eqn:Hw.
  - eexists. split; [by eapply process_entry_write_raises|].
    by eapply step_write_raises.
  - eexists. split; [by eapply process_entry_saved|].
    by eapply step_saved.
Qed.
End OneEntry.

(** What every way through the loop body has in common. *)
Lemma entry_step_effect (w : World) (f u : string) (st st' : State) :
  entry_step w f u st st' ->
  exists evs,
    trace st' = trace st ++ evs /\
    block_of (f, u) evs /\
    requested evs = (if exists_in (fs st) (target f) then [] else [u]) /\
    (fs st' = fs st \/
     (fs st !! target f = None /\
      exists d, fs st' = <[target f := File d]> (fs st))).
Proof.
  intros Hstep.
  inversion Hstep as [Hex|msg Hex Hg|r Hex Hg Hs|r msg Hex Hg Hs Ho
                     |r k msg Hex Hg Hs Ho Hw|r Hex Hg Hs Ho Hw]; subst;
    rewrite Hex; eexists; (split; [reflexivity|]).
  all: split;
    [split; [simpl; auto|];
     repeat match goal with |- Forall _ _ => constructor end;
     cbn [belongs_to fst snd downloading error_line failed_line saved_line
            skipping_line]; eauto 10|].
  all: split; [reflexivity|].
  all: try (by left).
  all: right; (split; [by apply exists_in_false|eauto]).
Qed.

Lemma process_entry_effect (w : World) (e : string * string) (st : State) :
  exists st' evs,
    process_entry w e st = (Ok tt, st') /\
    trace st' = trace st ++ evs /\
    block_of e evs /\
    requested evs
      = (if exists_in (fs st) (target (fst e)) then [] else [snd e]) /\
    (fs st' = fs st \/
     (fs st !! target (fst e) = None /\
      exists d, fs st' = <[target (fst e) := File d]> (fs st))).
Proof.
  destruct e as [f u].
  destruct (process_entry_sound w f u st) as (st' & Heq & Hstep).
  destruct (entry_step_effect _ _ _ _ _ Hstep) as (evs & H).
  exists st', evs. split; [exact Heq|exact H].
Qed.

Lemma process_entry_returns (w : World) (e : string * string) (st : State) :
  process_entry w e st = (Ok tt, run (process_entry w e) st).
Proof.
  destruct (process_entry_effect w e st) as (st' & evs & Heq & _).
  unfold run. rewrite Heq. reflexivity.
Qed.

(** A path that is there stays there, with what it holds. *)
Lemma process_entry_keeps (w : World) (e : string * string) (st : State)
    (p : string) (n : node) :
  fs st !! p = Some n -> fs (run (process_entry w e) st) !! p = Some n.
Proof.
  intros Hp. unfold run.
  destruct (process_entry_effect w e st)
    as (st' & evs & -> & _ & _ & _ & [Hfs|(Hnone & d & Hfs)]); simpl;
    rewrite Hfs; [done|].
  rewrite lookup_insert_ne; [done|]. intros <-. congruence.
Qed.

(** An entry touches no path but its own target. *)
Lemma process_entry_frame (w : World) (e : string * string) (st : State)
    (p : string) :
  p <> target (fst e) ->
  fs (run (process_entry w e) st) !! p = fs st !! p.
Proof.
  intros Hp. unfold run.
  destruct (process_entry_effect w e st)
    as (st' & evs & -> & _ & _ & _ & [Hfs|(Hnone & d & Hfs)]); simpl;
    rewrite Hfs; [done|].
  by rewrite lookup_insert_ne.
Qed.

(* ===================================================================== *)
(** ** The loop *)
(* ===================================================================== *)

Section Loop.
Variable w : World.

Lemma for_each_cons (e : string * string) (xs : list (string * string))
    (st : State) :
  for_each (e :: xs) (process_entry w) st
    = for_each xs (process_entry w) (run (process_entry w e) st).
Proof.
  simpl. unfold bind. by rewrite process_entry_returns.
Qed.

Lemma run_for_each_cons (e : string * string)
    (xs : list (string * string)) (st : State) :
  run (for_each (e :: xs) (process_entry w)) st
    = run (for_each xs (process_entry w)) (run (process_entry w e) st).
Proof. unfold run at 1 2. by rewrite for_each_cons. Qed.

Lemma for_each_returns (xs : list (string * string)) (st : State) :
  for_each xs (process_entry w) st
    = (Ok tt, run (for_each xs (process_entry w)) st).
Proof.
  revert st. induction xs as [|e xs IH]; intros st; [reflexivity|].
  by rewrite run_for_each_cons, for_each_cons, IH.
Qed.

Lemma for_each_app (xs ys : list (string * string)) (st : State) :
  for_each (xs ++ ys) (process_entry w) st
    = for_each ys (process_entry w) (run (for_each xs (process_entry w)) st).
Proof.
  revert st. induction xs as [|e xs IH]; intros st; [reflexivity|].
  by rewrite <- app_comm_cons, for_each_cons, IH, run_for_each_cons.
Qed.

(** The trace of the loop is one block of calls per entry, in the order
    of the entries. *)
Lemma for_each_blocks (xs : list (string * string)) (st : State) :
  exists bs,
    Forall2 block_of xs bs /\
    trace (run (for_each xs (process_entry w)) st) = trace st ++ concat bs.
Proof.
  revert st. induction xs as [|e xs IH]; intros st.
  - exists []. split; [constructor|]. simpl. by rewrite app_nil_r.
  - rewrite run_for_each_cons.
    destruct (process_entry_effect w e st)
      as (st1 & b & Heq & Ht & Hb & _).
    unfold run at 2. rewrite Heq. simpl.
    destruct (IH st1) as (bs & Hbs & Hts).
    exists (b :: bs). split; [by constructor|].
    simpl. by rewrite Hts, Ht, app_assoc.
Qed.

Lemma for_each_trace (xs : list (string * string)) (st : State) :
  exists evs,
    trace (run (for_each xs (process_entry w)) st) = trace st ++ evs.
Proof. destruct (for_each_blocks xs st) as (bs & _ & H). eauto. Qed.

Lemma for_each_keeps (xs : list (string * string)) (st : State)
    (p : string) (n : node) :
  fs st !! p = Some n ->
  fs (run (for_each xs (process_entry w)) st) !! p = Some n.
Proof.
  revert st. induction xs as [|e xs IH]; intros st Hp; [done|].
  rewrite run_for_each_cons. apply IH. by apply process_entry_keeps.
Qed.

Lemma for_each_frame (xs : list (string * string)) (st : State)
    (p : string) :
  p ∉ map target (map fst xs) ->
  fs (run (for_each xs (process_entry w)) st) !! p = fs st !! p.
Proof.
  revert st. induction xs as [|e xs IH]; intros st Hp; [done|].
  rewrite run_for_each_cons. simpl in Hp.
  apply not_elem_of_cons in Hp as [Hne Hp].
  rewrite IH by done. by apply process_entry_frame.
Qed.
End Loop.

Lemma entering_eq (w : World) (pre : list (string * string)) (st0 : State) :
  entering w pre st0
    = run (for_each pre (process_entry w)) (logged st0 [starting]).
Proof. reflexivity. Qed.

(** The announcement line and the entries of [pre] only add to the file
    system and to the trace. *)
Lemma entering_keeps (w : World) (pre : list (string * string)) (st0 : State)
    (p : string) (n : node) :
  fs st0 !! p = Some n -> fs (entering w pre st0) !! p = Some n.
Proof. intros Hp. rewrite entering_eq. by apply for_each_keeps. Qed.

(** The batch, cut at any of its entries. *)
Lemma fetch_all_split (w : World) (pre post : list (string * string))
    (e : string * string) (st0 : State) :
  fetch_all (pre ++ e :: post) w st0
    = resume w post (run (process_entry w e) (entering w pre st0)).
Proof.
  unfold fetch_all, resume, entering, run, bind, print, emit. simpl.
  rewrite for_each_app. unfold run. rewrite for_each_cons. reflexivity.
Qed.

Lemma resume_eq (w : World) (post : list (string * string)) (st : State) :
  resume w post st
    = (Ok tt, logged (run (for_each post (process_entry w)) st)
                [EPrint closing_message]).
Proof.
  unfold resume, bind. rewrite for_each_returns. reflexivity.
Qed.

Lemma fetch_all_eq (w : World) (libs : list (string * string)) (st : State) :
  fetch_all libs w st
    = (Ok tt, logged (run (for_each libs (process_entry w))
                          (logged st [starting]))
                [EPrint closing_message]).
Proof.
  unfold fetch_all, bind, print, emit. simpl. rewrite for_each_returns.
  reflexivity.
Qed.

(** After a cut, a path that is there is still there at the end. *)
Lemma resume_keeps (w : World) (post : list (string * string)) (st : State)
    (p : string) (n : node) :
  fs st !! p = Some n -> fs (run (resume w post) st) !! p = Some n.
Proof.
  intros Hp. unfold run. rewrite resume_eq. simpl. by apply for_each_keeps.
Qed.

Lemma resume_frame (w : World) (post : list (string * string)) (st : State)
    (f : string) :
  f ∉ map fst post ->
  fs (run (resume w post) st) !! target f = fs st !! target f.
Proof.
  intros Hf. unfold run. rewrite resume_eq. simpl. apply for_each_frame.
  intros Hin. apply Hf. apply list_elem_of_fmap in Hin as (g & Hg & Hin).
  apply target_inj in Hg. by subst.
Qed.

Lemma resume_returns (w : World) (post : list (string * string))
    (st : State) :
  returns (resume w post) st.
Proof. exists tt. by rewrite resume_eq. Qed.

(* ===================================================================== *)
(** ** The directory step and the whole script *)
(* ===================================================================== *)

Lemma ensure_directory_present (w : World) (st : State) :
  exists_in (fs st) "libs" = true -> ensure_directory w st = (Ok tt, st).
Proof. intros H. py_unfold. rewrite H. reflexivity. Qed.

Lemma ensure_directory_absent (w : World) (st : State) :
  exists_in (fs st) "libs" = false ->
  ensure_directory w st =
    match makedirs_fault w "libs" with
    | None =>
        (Ok tt, {| fs := <["libs" := Dir]> (fs st);
                   trace := trace st ++ [EMakedirs "libs";
                                         EPrint "Created directory: libs/"] |})
    | Some msg => (Raised msg, logged st [EMakedirs "libs"])
    end.
Proof.
  intros H. py_unfold. rewrite H. simpl.
  destruct (makedirs_fault w "libs"); rewrite H; simpl; [reflexivity|].
  rewrite <- app_assoc. reflexivity.
Qed.

Lemma ensure_directory_keeps (w : World) (st : State) (p : string) (n : node) :
  fs st !! p = Some n -> fs (run (ensure_directory w) st) !! p = Some n.
Proof.
  intros Hp. unfold run.
  destruct (exists_in (fs st) "libs") eqn:Hex.
  - by rewrite ensure_directory_present.
  - rewrite ensure_directory_absent by done.
    destruct (makedirs_fault w "libs"); simpl; [done|].
    rewrite lookup_insert_ne; [done|].
    intros <-. apply exists_in_false in Hex. congruence.
Qed.

Lemma ensure_directory_requested (w : World) (st : State) :
  requested (trace (run (ensure_directory w) st)) = requested (trace st).
Proof.
  unfold run. destruct (exists_in (fs st) "libs") eqn:Hex.
  - by rewrite ensure_directory_present.
  - rewrite ensure_directory_absent by done.
    destruct (makedirs_fault w "libs"); simpl;
      rewrite requested_app; simpl; by rewrite app_nil_r.
Qed.

Lemma download_libs_eq (w : World) (st : State) :
  download_libs w st =
    match ensure_directory w st with
    | (Ok _, st1) => fetch_all LIBRARIES w st1
    | (Raised msg, st1) => (Raised msg, st1)
    end.
Proof. reflexivity. Qed.

(** The URLs of [LIBRARIES] are pairwise different. *)
Lemma LIBRARIES_url_inj (f g u : string) :
  (f, u) ∈ LIBRARIES -> (g, u) ∈ LIBRARIES -> f = g.
Proof.
  unfold LIBRARIES. rewrite !elem_of_cons, !elem_of_nil.
  intros [Hf|[Hf|[Hf|[Hf|[]]]]] [Hg|[Hg|[Hg|[Hg|[]]]]];
    injection Hf as -> ->; inversion Hg; reflexivity.
Qed.

(* ===================================================================== *)
(** ** Which entries a run requests *)
(* ===================================================================== *)

Lemma target_not_libs (f : string) : target f <> "libs".
Proof.
  unfold target, os_path_join. simpl.
  destruct (starts_with_slash f) eqn:Hf; intros H.
  - subst f. discriminate Hf.
  - discriminate H.
Qed.

Lemma absent_entries_ext (m1 m2 : gmap string node)
    (xs : list (string * string)) :
  (forall e, e ∈ xs -> m1 !! target (fst e) = m2 !! target (fst e)) ->
  absent_entries m1 xs = absent_entries m2 xs.
Proof.
  induction xs as [|e xs IH]; intros Hext; [reflexivity|].
  unfold absent_entries in *. simpl.
  assert (He : exists_in m1 (target (fst e)) = exists_in m2 (target (fst e))).
  { unfold exists_in. rewrite (Hext e); [reflexivity|left]. }
  rewrite He, IH; [reflexivity|]. intros e' He'. apply Hext. by right.
Qed.

(** With the file names of a dict, the loop requests exactly the entries
    whose target was absent when it began, in the order of the dict. *)
Lemma for_each_requests_exact (w : World) (xs : list (string * string))
    (st : State) :
  NoDup (map fst xs) ->
  requested (trace (run (for_each xs (process_entry w)) st))
    = requested (trace st) ++ map snd (absent_entries (fs st) xs).
Proof.
  revert st. induction xs as [|e xs IH]; intros st Hnd.
  - simpl. by rewrite app_nil_r.
  - simpl in Hnd. apply NoDup_cons in Hnd as [Hfresh Hnd].
    rewrite run_for_each_cons, IH by done.
    destruct (process_entry_effect w e st)
      as (st1 & evs & Heq & Ht & _ & Hreq & _).
    assert (Hrun : run (process_entry w e) st = st1)
      by (unfold run; by rewrite Heq).
    rewrite (absent_entries_ext (fs (run (process_entry w e) st)) (fs st)).
    + rewrite Hrun, Ht, requested_app, Hreq, <- app_assoc. f_equal.
      unfold absent_entries. simpl.
      by destruct (exists_in (fs st) (target (fst e))).
    + intros e' He'. apply process_entry_frame.
      intros Heq'. apply target_inj in Heq'. apply Hfresh.
      rewrite <- Heq'. apply list_elem_of_fmap. eauto.
Qed.

Lemma LIBRARIES_names_NoDup : NoDup (map fst LIBRARIES).
Proof.
  unfold LIBRARIES. simpl.
  repeat (constructor;
          [rewrite list_elem_of_In; simpl; intuition discriminate|]).
  constructor.
Qed.

Lemma absent_entries_nil (m : gmap string node)
    (xs : list (string * string)) :
  (forall f u, (f, u) ∈ xs -> exists_in m (target f) = true) ->
  absent_entries m xs = [].
Proof.
  induction xs as [|[f u] xs IH]; intros Hall; [reflexivity|].
  unfold absent_entries in *. simpl.
  rewrite (Hall f u) by left. simpl.
  apply IH. intros g v Hg. apply (Hall g v). by right.
Qed.

Lemma elem_of_absent_entries (m : gmap string node)
    (xs : list (string * string)) (e : string * string) :
  e ∈ absent_entries m xs <->
  e ∈ xs /\ exists_in m (target (fst e)) = false.
Proof.
  unfold absent_entries. rewrite !list_elem_of_In, List.filter_In.
  by rewrite negb_true_iff.
Qed.

(** The second of two runs, from the first request on. *)
Lemma download_libs_requests (w : World) (st : State) :
  requested (trace (run (download_libs w) st))
    = requested (trace st) ++
      (if returned (fst (ensure_directory w st))
       then map snd (absent_entries (fs st) LIBRARIES)
       else []).
Proof.
  unfold run at 1. rewrite download_libs_eq.
  pose proof (ensure_directory_requested w st) as Hreq.
  assert (Hframe : forall e : string * string,
             fs (run (ensure_directory w) st) !! target (fst e)
               = fs st !! target (fst e)).
  { intros e. unfold run.
    destruct (exists_in (fs st) "libs") eqn:Hex.
    - by rewrite ensure_directory_present.
    - rewrite ensure_directory_absent by done.
      destruct (makedirs_fault w "libs"); simpl; [done|].
      rewrite lookup_insert_ne; [done|].
      intros Heq. by apply (target_not_libs (fst e)). }
  unfold run in Hreq, Hframe.
  destruct (ensure_directory w st) as [[[]|msg] st1];
    cbn [fst snd returned] in *.
  - rewrite fetch_all_eq. cbn [snd logged trace fs].
    rewrite requested_app. cbn [requested].
    rewrite app_nil_r, for_each_requests_exact
      by apply LIBRARIES_names_NoDup.
    cbn [logged trace fs]. rewrite requested_app. cbn [requested].
    rewrite app_nil_r, Hreq.
    f_equal. f_equal. apply absent_entries_ext. intros e _. apply Hframe.
  - by rewrite app_nil_r.
Qed.

(* ===================================================================== *)
(** ** The properties of the specification *)
(* ===================================================================== *)

(** C1.  An entry whose target file exists when the loop reaches it is
    skipped: its only call is the print of the "already exists" line, so
    no GET is issued for it and the file system is left as it was.  The
    batch goes on with the next entry, and at the end of the run the
    target still holds what it held. *)
Theorem present_entry_is_skipped (w : World)
    (pre post : list (string * string)) (filename url : string)
    (st0 : State) :
  let st := entering w pre st0 in
  let libs := pre ++ (filename, url) :: post in
  exists_in (fs st) (target filename) = true ->
  let st' := logged st [EPrint (filename +:+ " already exists. Skipping.")] in
  process_entry w (filename, url) st = (Ok tt, st') /\
  requested (trace st') = requested (trace st) /\
  fs st' = fs st /\
  fetch_all libs w st0 = resume w post st' /\
  fs (run (fetch_all libs w) st0) !! target filename
    = fs st !! target filename.
Proof.
  intros st libs Hex st'.
  pose proof (process_entry_skip w filename url st Hex) as Hskip.
  assert (Hsplit : fetch_all libs w st0 = resume w post st').
  { unfold libs. rewrite fetch_all_split. fold st. unfold run.
    by rewrite Hskip. }
  repeat split; try done.
  - unfold st', logged. simpl. rewrite requested_app. simpl.
    by rewrite app_nil_r.
  - unfold run at 1. rewrite Hsplit. fold (run (resume w post) st').
    apply exists_in_true in Hex as [n Hn]. rewrite Hn.
    by apply resume_keeps.
Qed.

Lemma present_entry_is_skipped_witness :
  exists_in (fs (entering w_ok [] st_cached)) (target "react.js") = true /\
  process_entry w_ok ("react.js", react_url) (entering w_ok [] st_cached)
    = (Ok tt, {| fs := fs st_cached;
                 trace := [starting;
                           EPrint "react.js already exists. Skipping."] |}).
Proof.
  split; [reflexivity|].
  apply (present_entry_is_skipped w_ok [] after_react "react.js" react_url
           st_cached).
  reflexivity.
Defined.

(** C2, as stated, fails: with [libs/] read-only, the target of react.js
    is absent and its GET answers 200, yet [open] raises, nothing is
    written and the line logged is the error line, not "Saved". *)
Lemma status_200_not_saved_counterexample :
  let st := entering w_readonly [] st_libs in
  let r := mkResponse 200 sample_body in
  let st' := run (process_entry w_readonly ("react.js", react_url)) st in
  exists_in (fs st) (target "react.js") = false /\
  http_get w_readonly (count_gets (trace st)) react_url = Responds r /\
  status_code r = 200 /\
  st' = logged st [EPrint "Downloading react.js..."; EGet react_url;
                   EOpenWb "libs/react.js";
                   EPrint "Error downloading react.js: [Errno 13] Permission denied"] /\
  fs st' !! target "react.js" <> Some (File (content r)) /\
  EPrint "Saved react.js" ∉ trace st'.
Proof.
  repeat split; try reflexivity.
  - vm_compute. discriminate.
  - rewrite list_elem_of_In. vm_compute.
    intros [H|[H|[H|[H|[H|[]]]]]]; discriminate H.
Qed.

(** C2, amended.  An entry whose target file is absent, whose GET answers
    200 and whose file is opened and written without an exception: the
    target is opened in mode "wb", the one write carries exactly the bytes
    of the response body, the file then holds exactly those bytes (whatever
    the path held is replaced), "Saved" is logged, and the file holds
    those bytes at the end of the run. *)
Theorem status_200_saves_body (w : World)
    (pre post : list (string * string)) (filename url : string)
    (st0 : State) (r : Response) :
  let st := entering w pre st0 in
  let libs := pre ++ (filename, url) :: post in
  exists_in (fs st) (target filename) = false ->
  http_get w (count_gets (trace st)) url = Responds r ->
  status_code r = 200 ->
  open_fault w (target filename) = None ->
  write_fault w (target filename) (content r) = None ->
  let st' :=
    {| fs := <[target filename := File (content r)]> (fs st);
       trace := trace st ++
         [EPrint ("Downloading " +:+ filename +:+ "..."); EGet url;
          EOpenWb (target filename); EWrite (target filename) (content r);
          EPrint ("Saved " +:+ filename)] |} in
  process_entry w (filename, url) st = (Ok tt, st') /\
  fs st' !! target filename = Some (File (content r)) /\
  fetch_all libs w st0 = resume w post st' /\
  fs (run (fetch_all libs w) st0) !! target filename
    = Some (File (content r)).
Proof.
  intros st libs Hex Hget Hs Ho Hw st'.
  pose proof (process_entry_saved w filename url st r Hex Hget Hs Ho Hw)
    as Hsaved.
  assert (Hsplit : fetch_all libs w st0 = resume w post st').
  { unfold libs. rewrite fetch_all_split. fold st. unfold run.
    by rewrite Hsaved. }
  assert (Hfile : fs st' !! target filename = Some (File (content r))).
  { unfold st'. simpl. apply lookup_insert_eq. }
  repeat split; try done.
  unfold run at 1. rewrite Hsplit. fold (run (resume w post) st').
  by apply resume_keeps.
Qed.

Lemma status_200_saves_body_witness :
  fs (run (fetch_all LIBRARIES w_ok) st_libs) !! "libs/react.js"
    = Some (File sample_body).
Proof.
  apply (status_200_saves_body w_ok [] after_react "react.js" react_url
           st_libs (mkResponse 200 sample_body)); reflexivity.
Defined.

(** C4.  An entry whose target is absent and whose GET answers a status
    other than 200: the failure line with the status code is logged, the
    file system is left as it was (no file at the target), the loop body
    returns without an exception, the batch goes on with the next entry
    and returns; with the file names of a dict (no later entry of the
    same name) the target is still absent at the end of the run. *)
Theorem http_error_is_logged (w : World)
    (pre post : list (string * string)) (filename url : string)
    (st0 : State) (r : Response) :
  let st := entering w pre st0 in
  let libs := pre ++ (filename, url) :: post in
  exists_in (fs st) (target filename) = false ->
  http_get w (count_gets (trace st)) url = Responds r ->
  status_code r <> 200 ->
  let st' :=
    logged st [EPrint ("Downloading " +:+ filename +:+ "..."); EGet url;
               EPrint ("Failed to download " +:+ filename +:+ ": Status "
                         +:+ pretty (status_code r))] in
  process_entry w (filename, url) st = (Ok tt, st') /\
  fs st' = fs st /\
  fs st' !! target filename = None /\
  fetch_all libs w st0 = resume w post st' /\
  returns (fetch_all libs w) st0 /\
  (filename ∉ map fst post ->
   fs (run (fetch_all libs w) st0) !! target filename = None).
Proof.
  intros st libs Hex Hget Hs st'.
  pose proof (process_entry_status w filename url st r Hex Hget Hs) as Hst.
  assert (Hsplit : fetch_all libs w st0 = resume w post st').
  { unfold libs. rewrite fetch_all_split. fold st. unfold run.
    by rewrite Hst. }
  apply exists_in_false in Hex.
  repeat split; try done.
  - unfold returns. rewrite Hsplit. apply resume_returns.
  - intros Hfresh. unfold run at 1. rewrite Hsplit.
    fold (run (resume w post) st'). by rewrite resume_frame.
Qed.

Lemma http_error_is_logged_witness :
  process_entry w_404 ("react.js", react_url) (entering w_404 [] st_libs)
    = (Ok tt, {| fs := fs st_libs;
                 trace := [starting; EPrint "Downloading react.js...";
                           EGet react_url;
                           EPrint "Failed to download react.js: Status 404"] |}).
Proof.
  apply (http_error_is_logged w_404 [] after_react "react.js" react_url
           st_libs (mkResponse 404 [])); [reflexivity|reflexivity|].
  simpl. lia.
Defined.

(** C5.  An entry whose target is absent and whose GET raises: the
    exception is caught by the loop body, which logs its message and
    returns; the file system is left as it was (no file at the target);
    the batch goes on with the next entry and returns; with the file names
    of a dict the target is still absent at the end of the run. *)
Theorem transport_error_is_caught (w : World)
    (pre post : list (string * string)) (filename url : string)
    (st0 : State) (msg : string) :
  let st := entering w pre st0 in
  let libs := pre ++ (filename, url) :: post in
  exists_in (fs st) (target filename) = false ->
  http_get w (count_gets (trace st)) url = GetRaises msg ->
  let st' :=
    logged st [EPrint ("Downloading " +:+ filename +:+ "..."); EGet url;
               EPrint ("Error downloading " +:+ filename +:+ ": " +:+ msg)] in
  process_entry w (filename, url) st = (Ok tt, st') /\
  fs st' = fs st /\
  fs st' !! target filename = None /\
  fetch_all libs w st0 = resume w post st' /\
  returns (fetch_all libs w) st0 /\
  (filename ∉ map fst post ->
   fs (run (fetch_all libs w) st0) !! target filename = None).
Proof.
  intros st libs Hex Hget st'.
  pose proof (process_entry_get_raises w filename url st msg Hex Hget) as Hst.
  assert (Hsplit : fetch_all libs w st0 = resume w post st').
  { unfold libs. rewrite fetch_all_split. fold st. unfold run.
    by rewrite Hst. }
  apply exists_in_false in Hex.
  repeat split; try done.
  - unfold returns. rewrite Hsplit. apply resume_returns.
  - intros Hfresh. unfold run at 1. rewrite Hsplit.
    fold (run (resume w post) st'). by rewrite resume_frame.
Qed.

Lemma transport_error_is_caught_witness :
  process_entry w_offline ("react.js", react_url)
      (entering w_offline [] st_libs)
    = (Ok tt, {| fs := fs st_libs;
                 trace := [starting; EPrint "Downloading react.js...";
                           EGet react_url;
                           EPrint "Error downloading react.js: Connection refused"] |}).
Proof.
  apply (transport_error_is_caught w_offline [] after_react "react.js"
           react_url st_libs "Connection refused"); reflexivity.
Defined.

(** C3.  Once a run of the fetch has returned, every entry that did not
    fail, because its target existed when the loop reached it or because
    its GET answered 200 and the file was opened and written without an
    exception, has its target on the file system; for a relative file name
    that target is the file of that name in [libs/]. *)
Theorem unfailed_entries_exist (w : World)
    (pre post : list (string * string)) (filename url : string)
    (st0 : State) :
  let st := entering w pre st0 in
  let libs := pre ++ (filename, url) :: post in
  let final := run (fetch_all libs w) st0 in
  (exists_in (fs st) (target filename) = true \/
   exists r,
     exists_in (fs st) (target filename) = false /\
     http_get w (count_gets (trace st)) url = Responds r /\
     status_code r = 200 /\
     open_fault w (target filename) = None /\
     write_fault w (target filename) (content r) = None) ->
  fetch_all libs w st0 = (Ok tt, final) /\
  exists_in (fs final) (target filename) = true /\
  (starts_with_slash filename = false ->
   target filename = "libs/" +:+ filename).
Proof.
  intros st libs final Hok.
  assert (Hret : fetch_all libs w st0 = (Ok tt, final)).
  { unfold final, run. by rewrite fetch_all_eq. }
  split; [exact Hret|]. split; [|apply target_relative].
  assert (Hafter : is_Some (fs (run (process_entry w (filename, url)) st)
                              !! target filename)).
  { destruct Hok as [Hex|(r & Hex & Hget & Hs & Ho & Hw)].
    - apply exists_in_true in Hex as [n Hn]. exists n.
      by apply process_entry_keeps.
    - unfold run.
      rewrite (process_entry_saved w filename url st r Hex Hget Hs Ho Hw).
      simpl. rewrite lookup_insert_eq. eauto. }
  destruct Hafter as [n Hn]. apply exists_in_true. exists n.
  unfold final, run, libs. rewrite fetch_all_split.
  fold st. fold (run (resume w post) (run (process_entry w (filename, url)) st)).
  by apply resume_keeps.
Qed.

Lemma unfailed_entries_exist_witness :
  exists_in (fs (run (fetch_all LIBRARIES w_ok) st_cached)) "libs/babel.js"
    = true.
Proof.
  apply (unfailed_entries_exist w_ok [react_entry; react_dom_entry]
           [tailwind_entry] "babel.js"
           "https://unpkg.com/@babel/standalone/babel.min.js" st_cached).
  right. exists (mkResponse 200 sample_body). repeat split; reflexivity.
Defined.

(** C10.  The handler of the loop body also covers the file: when the
    target is absent, the GET answers 200 and [open] or [write] raises,
    that exception is caught, its message is logged on the same "Error
    downloading" line as a failed request, no "Saved" line is printed,
    the loop body returns, and the batch goes on with the next entry and
    returns. *)
Theorem file_errors_are_caught (w : World)
    (pre post : list (string * string)) (filename url : string)
    (st0 : State) (r : Response) (msg : string) :
  let st := entering w pre st0 in
  let libs := pre ++ (filename, url) :: post in
  exists_in (fs st) (target filename) = false ->
  http_get w (count_gets (trace st)) url = Responds r ->
  status_code r = 200 ->
  (open_fault w (target filename) = Some msg \/
   (open_fault w (target filename) = None /\
    exists k, write_fault w (target filename) (content r) = Some (k, msg))) ->
  exists st' attempt,
    process_entry w (filename, url) st = (Ok tt, st') /\
    (attempt = [] \/ attempt = [EWrite (target filename) (content r)]) /\
    trace st' = trace st ++
      [EPrint ("Downloading " +:+ filename +:+ "..."); EGet url;
       EOpenWb (target filename)] ++ attempt ++
      [EPrint ("Error downloading " +:+ filename +:+ ": " +:+ msg)] /\
    fetch_all libs w st0 = resume w post st' /\
    returns (fetch_all libs w) st0.
Proof.
  intros st libs Hex Hget Hs Hfault.
  assert (Hcut : forall st',
             process_entry w (filename, url) st = (Ok tt, st') ->
             fetch_all libs w st0 = resume w post st').
  { intros st' Heq. unfold libs. rewrite fetch_all_split. fold st.
    unfold run. by rewrite Heq. }
  destruct Hfault as [Ho|(Ho & k & Hw)].
  - pose proof (process_entry_open_raises w filename url st r msg
                  Hex Hget Hs Ho) as Heq.
    eexists _, []. split; [exact Heq|]. split; [by left|].
    split; [reflexivity|]. split; [by apply Hcut|].
    unfold returns. rewrite (Hcut _ Heq). apply resume_returns.
  - pose proof (process_entry_write_raises w filename url st r k msg
                  Hex Hget Hs Ho Hw) as Heq.
    eexists _, [_]. split; [exact Heq|]. split; [by right|].
    split; [reflexivity|]. split; [by apply Hcut|].
    unfold returns. rewrite (Hcut _ Heq). apply resume_returns.
Qed.

Lemma file_errors_are_caught_witness :
  returns (fetch_all LIBRARIES w_diskfull) st_libs.
Proof.
  destruct (file_errors_are_caught w_diskfull [] after_react "react.js"
              react_url st_libs (mkResponse 200 sample_body)
              "[Errno 28] No space left on device")
    as (st' & attempt & _ & _ & _ & _ & Hret);
    [reflexivity|reflexivity|reflexivity| |exact Hret].
  right. split; [reflexivity|]. exists 2%nat. reflexivity.
Defined.

(** C6.  Whatever the world does to each entry, the fetch returns
    normally: its trace is the announcement, one block of calls per entry
    (each opening with that entry's "already exists" or "Downloading"
    line), and last the closing line.  The exit status of the script does
    not depend on the entries: it is 0 exactly when the directory step
    returned, and then the last call of the process is the print of the
    closing line. *)
Theorem batch_always_completes (w : World) (libs : list (string * string))
    (st0 : State) :
  let final := run (fetch_all libs w) st0 in
  fetch_all libs w st0 = (Ok tt, final) /\
  (exists bs,
     Forall2 block_of libs bs /\
     trace final
       = trace st0 ++ EPrint "Starting download of dependencies..."
                        :: concat bs ++ [EPrint closing_message]) /\
  last (trace final) = Some (EPrint closing_message) /\
  (fst (main w st0) = 0 <-> returns (ensure_directory w) st0) /\
  (returns (ensure_directory w) st0 ->
   last (trace (snd (main w st0))) = Some (EPrint closing_message)).
Proof.
  intros final.
  assert (Hfinal : forall st,
             last (trace (run (fetch_all libs w) st))
               = Some (EPrint closing_message)).
  { intros st. unfold run. rewrite fetch_all_eq. simpl. apply last_snoc. }
  split; [unfold final, run; by rewrite fetch_all_eq|].
  split.
  { destruct (for_each_blocks w libs (logged st0 [starting]))
      as (bs & Hbs & Ht).
    exists bs. split; [exact Hbs|].
    unfold final, run. rewrite fetch_all_eq. simpl. rewrite Ht. simpl.
    by rewrite <- !app_assoc. }
  split; [apply Hfinal|].
  unfold main, returns. rewrite download_libs_eq.
  destruct (ensure_directory w st0) as [[[]|msg] st1]; simpl.
  - rewrite fetch_all_eq. simpl. split; [split; eauto|].
    intros _. apply last_snoc.
  - split; [split; [discriminate|intros [a Ha]; discriminate]|].
    intros [a Ha]. discriminate.
Qed.

Lemma batch_always_completes_witness :
  fst (main w_offline st_empty) = 0.
Proof.
  apply (batch_always_completes w_offline LIBRARIES st_empty).
  exists tt. reflexivity.
Defined.

(** C7.  The directory step is idempotent.  When [libs] exists the step
    does nothing and raises nothing.  When [libs] is absent the step calls
    [os.makedirs]: the directory is created and "Created directory" is
    logged, unless the operating system refuses and the exception leaves
    the step.  Whenever the step has returned, [libs] exists, and the step
    run again, in any world, returns and leaves the state as it is. *)
Theorem ensure_directory_idempotent (w w' : World) (st : State) :
  (exists_in (fs st) "libs" = true -> ensure_directory w st = (Ok tt, st)) /\
  (exists_in (fs st) "libs" = false ->
   ensure_directory w st =
     match makedirs_fault w "libs" with
     | None =>
         (Ok tt, {| fs := <["libs" := Dir]> (fs st);
                    trace := trace st ++
                      [EMakedirs "libs";
                       EPrint "Created directory: libs/"] |})
     | Some msg => (Raised msg, logged st [EMakedirs "libs"])
     end) /\
  (forall st', ensure_directory w st = (Ok tt, st') ->
     exists_in (fs st') "libs" = true /\
     ensure_directory w' st' = (Ok tt, st')).
Proof.
  split; [apply ensure_directory_present|].
  split; [apply ensure_directory_absent|].
  intros st' Hret.
  assert (Hex' : exists_in (fs st') "libs" = true).
  { destruct (exists_in (fs st) "libs") eqn:Hex.
    - rewrite ensure_directory_present in Hret by done.
      by injection Hret as <-.
    - rewrite ensure_directory_absent in Hret by done.
      destruct (makedirs_fault w "libs"); [discriminate|].
      injection Hret as <-. apply exists_in_insert. }
  split; [exact Hex'|by apply ensure_directory_present].
Qed.

Lemma ensure_directory_idempotent_witness :
  ensure_directory w_ok st_empty
    = (Ok tt, {| fs := {["libs" := Dir]};
                 trace := [EMakedirs "libs";
                           EPrint "Created directory: libs/"] |}) /\
  ensure_directory w_nomkdir
      {| fs := {["libs" := Dir]};
         trace := [EMakedirs "libs"; EPrint "Created directory: libs/"] |}
    = (Ok tt, {| fs := {["libs" := Dir]};
                 trace := [EMakedirs "libs";
                           EPrint "Created directory: libs/"] |}).
Proof.
  pose proof (ensure_directory_idempotent w_ok w_nomkdir st_empty)
    as (_ & Habsent & Hagain).
  specialize (Habsent eq_refl). split; [exact Habsent|].
  apply (Hagain _ Habsent).
Defined.

(** C8, as stated, fails: when every GET of a first run answers 404, no
    file is written; nothing is removed, and the second run issues the
    four GETs again. *)
Lemma second_run_requests_again_counterexample :
  let st1 := run (download_libs w_404) st_empty in
  let st2 := run (download_libs w_404) st1 in
  fs st1 = {["libs" := Dir]} /\
  fs st2 = fs st1 /\
  requested (trace st1) = map snd LIBRARIES /\
  requested (trace st2) = map snd LIBRARIES ++ map snd LIBRARIES.
Proof. repeat split; vm_compute; reflexivity. Qed.

(** C8, amended.  In the second of two successive runs, with nothing
    removed in between, the GETs issued are exactly those of the entries
    whose target is absent at the end of the first run, in the order of
    the dict (and none when the directory step of the second run raises).
    So no GET is issued for an entry whose target exists after the first
    run, and when every target exists after the first run the second run
    performs zero network calls. *)
Theorem second_run_requests_the_absent (w1 w2 : World) (st0 : State) :
  let st1 := run (download_libs w1) st0 in
  let st2 := run (download_libs w2) st1 in
  let again :=
    if returned (fst (ensure_directory w2 st1))
    then map snd (absent_entries (fs st1) LIBRARIES)
    else [] in
  requested (trace st2) = requested (trace st1) ++ again /\
  (forall f u, (f, u) ∈ LIBRARIES ->
     exists_in (fs st1) (target f) = true -> u ∉ again) /\
  ((forall f u, (f, u) ∈ LIBRARIES ->
      exists_in (fs st1) (target f) = true) ->
   requested (trace st2) = requested (trace st1)).
Proof.
  intros st1 st2 again.
  assert (Hreq : requested (trace st2) = requested (trace st1) ++ again)
    by apply download_libs_requests.
  split; [exact Hreq|]. split.
  - intros f u Hin Hex Hu. unfold again in Hu.
    destruct (returned (fst (ensure_directory w2 st1)));
      [|by apply elem_of_nil in Hu].
    apply list_elem_of_fmap in Hu as ([g v] & Hv & Hg). simpl in Hv.
    subst v. apply elem_of_absent_entries in Hg as [Hg Habs]. simpl in Habs.
    rewrite (LIBRARIES_url_inj f g u Hin Hg) in Hex. congruence.
  - intros Hall. rewrite Hreq. unfold again.
    rewrite (absent_entries_nil _ _ Hall). simpl.
    destruct (returned _); by rewrite app_nil_r.
Qed.

Lemma second_run_requests_the_absent_witness :
  requested (trace (run (download_libs w_offline)
                        (run (download_libs w_ok) st_empty)))
    = requested (trace (run (download_libs w_ok) st_empty)).
Proof.
  apply (second_run_requests_the_absent w_ok w_offline st_empty).
  unfold LIBRARIES. intros f u. rewrite !elem_of_cons, elem_of_nil.
  intros [H|[H|[H|[H|[]]]]]; injection H as -> ->; reflexivity.
Defined.

(** C9.  The entries are processed one at a time in the order in which
    the dict defines them: react.js, react-dom.js, babel.js, tailwind.js.
    Each entry runs in the state its predecessor left, so the trace of a
    run is the announcement, then the block of calls of each entry in that
    order, then the closing line: every print, GET, open and write of an
    entry comes before every call of the entries after it. *)
Theorem entries_in_definition_order (w : World) (st0 : State) :
  let s0 := logged st0 [EPrint "Starting download of dependencies..."] in
  let s1 := run (process_entry w react_entry) s0 in
  let s2 := run (process_entry w react_dom_entry) s1 in
  let s3 := run (process_entry w babel_entry) s2 in
  let s4 := run (process_entry w tailwind_entry) s3 in
  LIBRARIES = [react_entry; react_dom_entry; babel_entry; tailwind_entry] /\
  map fst LIBRARIES = ["react.js"; "react-dom.js"; "babel.js"; "tailwind.js"] /\
  fetch_all LIBRARIES w st0 = (Ok tt, logged s4 [EPrint closing_message]) /\
  exists b1 b2 b3 b4,
    block_of react_entry b1 /\ block_of react_dom_entry b2 /\
    block_of babel_entry b3 /\ block_of tailwind_entry b4 /\
    trace s1 = trace s0 ++ b1 /\
    trace s2 = trace s0 ++ b1 ++ b2 /\
    trace s3 = trace s0 ++ b1 ++ b2 ++ b3 /\
    trace s4 = trace s0 ++ b1 ++ b2 ++ b3 ++ b4.
Proof.
  intros s0 s1 s2 s3 s4.
  split; [reflexivity|]. split; [reflexivity|]. split.
  { rewrite fetch_all_eq. fold starting. fold s0.
    change LIBRARIES
      with [react_entry; react_dom_entry; babel_entry; tailwind_entry].
    by rewrite !run_for_each_cons. }
  destruct (process_entry_effect w react_entry s0)
    as (t1 & b1 & E1 & T1 & B1 & _).
  assert (H1 : trace s1 = trace s0 ++ b1)
    by (unfold s1 at 1, run; rewrite E1; exact T1).
  destruct (process_entry_effect w react_dom_entry s1)
    as (t2 & b2 & E2 & T2 & B2 & _).
  assert (H2 : trace s2 = trace s0 ++ b1 ++ b2)
    by (unfold s2 at 1, run; rewrite E2; cbn [snd];
        by rewrite T2, H1, <- app_assoc).
  destruct (process_entry_effect w babel_entry s2)
    as (t3 & b3 & E3 & T3 & B3 & _).
  assert (H3 : trace s3 = trace s0 ++ b1 ++ b2 ++ b3)
    by (unfold s3 at 1, run; rewrite E3; cbn [snd];
        by rewrite T3, H2, <- !app_assoc).
  destruct (process_entry_effect w tailwind_entry s3)
    as (t4 & b4 & E4 & T4 & B4 & _).
  assert (H4 : trace s4 = trace s0 ++ b1 ++ b2 ++ b3 ++ b4)
    by (unfold s4 at 1, run; rewrite E4; cbn [snd];
        by rewrite T4, H3, <- !app_assoc).
  exists b1, b2, b3, b4. auto 10.
Qed.

(* ===================================================================== *)
(** ** Further properties of the script *)
(* ===================================================================== *)

Lemma string_length_app (a b : string) :
  String.length (a +:+ b) = (String.length a + String.length b)%nat.
Proof. induction a as [|c a IH]; simpl; [reflexivity|by rewrite IH]. Qed.

(** The "already exists" line of a name is never its "Saved" line. *)
Lemma skipping_line_not_saved (f : string) : skipping_line f <> saved_line f.
Proof.
  unfold skipping_line, saved_line. intros H. injection H as H.
  apply (f_equal String.length) in H. rewrite !string_length_app in H.
  simpl in H. lia.
Qed.

Lemma fetch_all_run_eq (w : World) (libs : list (string * string))
    (st : State) :
  run (fetch_all libs w) st
    = logged (run (for_each libs (process_entry w)) (logged st [starting]))
        [EPrint closing_message].
Proof. unfold run at 1. by rewrite fetch_all_eq. Qed.

Lemma fetch_all_keeps (w : World) (libs : list (string * string))
    (st : State) (p : string) (n : node) :
  fs st !! p = Some n -> fs (run (fetch_all libs w) st) !! p = Some n.
Proof. intros Hp. rewrite fetch_all_run_eq. by apply for_each_keeps. Qed.

(** The requests of the loop, entry by entry: each entry adds its URL at
    most once. *)
Lemma for_each_requests_sublist (w : World) (xs : list (string * string))
    (st : State) :
  exists rs,
    requested (trace (run (for_each xs (process_entry w)) st))
      = requested (trace st) ++ rs /\
    rs `sublist_of` map snd xs /\
    forall u, u ∈ rs ->
      exists f, (f, u) ∈ xs /\ exists_in (fs st) (target f) = false.
Proof.
  revert st. induction xs as [|e xs IH]; intros st.
  - exists []. split; [by rewrite app_nil_r|]. split; [constructor|].
    intros u Hu. inversion Hu.
  - rewrite run_for_each_cons.
    destruct (process_entry_effect w e st)
      as (st1 & b & Heq & Ht & _ & Hreq & _).
    pose proof (process_entry_keeps w e st) as Hkeep.
    assert (Hrun : run (process_entry w e) st = st1)
      by (unfold run; by rewrite Heq).
    rewrite Hrun in *.
    destruct (IH st1) as (rs & Hrs & Hsub & Hin).
    exists (requested b ++ rs). split; [|split].
    + by rewrite Hrs, Ht, requested_app, app_assoc.
    + rewrite Hreq. simpl.
      destruct (exists_in (fs st) (target (fst e))); simpl;
        [by apply sublist_cons|by apply sublist_skip].
    + intros u Hu. apply elem_of_app in Hu as [Hu|Hu].
      * rewrite Hreq in Hu. destruct e as [f u0]. simpl in *.
        destruct (exists_in (fs st) (target f)) eqn:Hex; [inversion Hu|].
        apply list_elem_of_singleton in Hu as ->.
        exists f. split; [left|done].
      * destruct (Hin u Hu) as (f & Hf & Hex).
        exists f. split; [by right|].
        apply exists_in_false. apply exists_in_false in Hex.
        destruct (fs st !! target f) as [n|] eqn:Hl; [|done].
        apply Hkeep in Hl. congruence.
Qed.

(** X1.  The script never removes or changes what is already on the file
    system: a path that exists before [download_libs] holds the same node
    afterwards, whether the script returned or raised and whatever the
    network and the disk did. *)
Theorem existing_paths_are_never_changed (w : World) (st : State)
    (p : string) (n : node) :
  fs st !! p = Some n ->
  fs (run (download_libs w) st) !! p = Some n.
Proof.
  intros Hp. unfold run. rewrite download_libs_eq.
  pose proof (ensure_directory_keeps w st p n Hp) as Hdir.
  unfold run in Hdir.
  destruct (ensure_directory w st) as [[[]|msg] st1]; simpl in Hdir;
    [|exact Hdir].
  by apply fetch_all_keeps.
Qed.

Lemma existing_paths_are_never_changed_witness :
  fs (run (download_libs w_ok) st_cached) !! "libs/react.js"
    = Some (File sample_body).
Proof.
  apply (existing_paths_are_never_changed w_ok st_cached "libs/react.js"
           (File sample_body)).
  reflexivity.
Defined.



(** X3.  No retries: in a run of the fetch over any dict, the URLs
    requested are a subsequence of the dict's URLs (each entry at most one
    GET, in the order of the dict), so at most as many GETs as entries,
    and a URL is requested only for an entry whose target was absent when
    the run began. *)
Theorem at_most_one_get_per_entry (w : World)
    (libs : list (string * string)) (st : State) :
  exists rs,
    requested (trace (run (fetch_all libs w) st))
      = requested (trace st) ++ rs /\
    rs `sublist_of` map snd libs /\
    (length rs <= length libs)%nat /\
    forall u, u ∈ rs ->
      exists f, (f, u) ∈ libs /\ exists_in (fs st) (target f) = false.
Proof.
  destruct (for_each_requests_sublist w libs (logged st [starting]))
    as (rs & Hrs & Hsub & Hin).
  exists rs. split; [|split; [exact Hsub|split; [|exact Hin]]].
  - rewrite fetch_all_run_eq. cbn [logged trace].
    rewrite requested_app, Hrs. cbn [logged trace].
    rewrite requested_app. simpl. by rewrite !app_nil_r.
  - apply sublist_length in Hsub. by rewrite length_map in Hsub.
Qed.

(** Where a file the loop creates comes from. *)
Lemma for_each_created (w : World) (xs : list (string * string))
    (st : State) (p : string) (nd : node) :
  fs st !! p = None ->
  fs (run (for_each xs (process_entry w)) st) !! p = Some nd ->
  exists f u n r k,
    (f, u) ∈ xs /\ p = target f /\
    http_get w n u = Responds r /\ status_code r = 200 /\
    nd = File (take k (content r)).
Proof.
  revert st. induction xs as [|[f u] xs IH]; intros st Hnone Hsome.
  - unfold run in Hsome. simpl in Hsome. congruence.
  - rewrite run_for_each_cons in Hsome.
    destruct (process_entry_sound w f u st) as (st1 & Heq & Hstep).
    assert (Hrun : run (process_entry w (f, u)) st = st1)
      by (unfold run; by rewrite Heq).
    rewrite Hrun in Hsome. clear Hrun Heq.
    destruct (fs st1 !! p) as [nd1|] eqn:H1.
    + rewrite (for_each_keeps w xs st1 p nd1 H1) in Hsome.
      injection Hsome as <-.
      inversion Hstep as [Hex|msg Hex Hg|r Hex Hg Hs|r msg Hex Hg Hs Ho
                         |r k msg Hex Hg Hs Ho Hw|r Hex Hg Hs Ho Hw];
        subst st1; cbn [fs logged] in H1; try congruence.
      * destruct (decide (target f = p)) as [<-|Hne];
          [|rewrite lookup_insert_ne in H1 by done; congruence].
        rewrite lookup_insert_eq in H1. injection H1 as <-.
        exists f, u, (count_gets (trace st)), r, k.
        repeat split; try done. left.
      * destruct (decide (target f = p)) as [<-|Hne];
          [|rewrite lookup_insert_ne in H1 by done; congruence].
        rewrite lookup_insert_eq in H1. injection H1 as <-.
        exists f, u, (count_gets (trace st)), r, (length (content r)).
        repeat split; try done; [left|by rewrite take_ge].
    + destruct (IH st1 H1 Hsome) as (g & v & n & r & k & Hin & Hrest).
      exists g, v, n, r, k. split; [by right|exact Hrest].
Qed.



(** X5.  The console does not lie about success: when the last call of
    the loop body for an entry is the print of "Saved <name>", the target
    was absent, the GET of that entry answered 200, and the target now
    holds exactly the bytes of that response's body. *)
Theorem saved_line_means_saved (w : World) (filename url : string)
    (st : State) :
  let st' := run (process_entry w (filename, url)) st in
  last (trace st') = Some (EPrint ("Saved " +:+ filename)) ->
  exists r,
    exists_in (fs st) (target filename) = false /\
    http_get w (count_gets (trace st)) url = Responds r /\
    status_code r = 200 /\
    fs st' !! target filename = Some (File (content r)).
Proof.
  intros st' Hlast.
  destruct (process_entry_sound w filename url st) as (st1 & Heq & Hstep).
  assert (Hrun : st' = st1) by (unfold st', run; by rewrite Heq).
  rewrite Hrun in *. clear Hrun Heq.
  inversion Hstep as [Hex|msg Hex Hg|r Hex Hg Hs|r msg Hex Hg Hs Ho
                     |r k msg Hex Hg Hs Ho Hw|r Hex Hg Hs Ho Hw];
    subst st1; cbn [logged trace] in Hlast;
    rewrite last_app in Hlast; cbn [last] in Hlast;
    apply (inj Some) in Hlast;
    try (by apply skipping_line_not_saved in Hlast);
    try discriminate Hlast.
  exists r. repeat split; try done. simpl. apply lookup_insert_eq.
Qed.

Lemma saved_line_means_saved_witness :
  exists r,
    exists_in (fs st_libs) (target "react.js") = false /\
    http_get w_ok (count_gets (trace st_libs)) react_url = Responds r /\
    status_code r = 200 /\
    fs (run (process_entry w_ok ("react.js", react_url)) st_libs)
       !! target "react.js" = Some (File (content r)).
Proof.
  apply (saved_line_means_saved w_ok "react.js" react_url st_libs).
  reflexivity.
Defined.



(** A loop over entries that are all present prints one "already exists"
    line per entry and does nothing else. *)
Lemma for_each_all_present (w : World) (xs : list (string * string))
    (st : State) :
  (forall f u, (f, u) ∈ xs -> exists_in (fs st) (target f) = true) ->
  run (for_each xs (process_entry w)) st
    = logged st (map (fun e => skipping_line (fst e)) xs).
Proof.
  revert st. induction xs as [|[f u] xs IH]; intros st Hall.
  - unfold run, logged. simpl. rewrite app_nil_r. by destruct st.
  - rewrite run_for_each_cons. unfold run at 2.
    rewrite process_entry_skip by (apply (Hall f u); left). cbn [snd].
    rewrite IH.
    + unfold logged. simpl. by rewrite <- app_assoc.
    + intros g v Hg. cbn [logged fs]. apply (Hall g v). by right.
Qed.

(** X7.  A fully cached run only prints: when [libs] and the four targets
    exist, the script returns after exactly six prints (the announcement,
    the four "already exists" lines in the order of the dict, the closing
    line); it calls neither [os.makedirs], nor [requests.get], nor [open],
    and the file system is as it was. *)
Theorem cached_run_only_prints (w : World) (st : State) :
  (forall p, p ∈ ["libs"; "libs/react.js"; "libs/react-dom.js";
                  "libs/babel.js"; "libs/tailwind.js"] ->
             exists_in (fs st) p = true) ->
  download_libs w st =
    (Ok tt,
     logged st [EPrint "Starting download of dependencies...";
                EPrint "react.js already exists. Skipping.";
                EPrint "react-dom.js already exists. Skipping.";
                EPrint "babel.js already exists. Skipping.";
                EPrint "tailwind.js already exists. Skipping.";
                EPrint closing_message]).
Proof.
  intros Hall. rewrite download_libs_eq.
  rewrite ensure_directory_present by (apply Hall; left).
  rewrite fetch_all_eq, for_each_all_present.
  - unfold logged. simpl. by rewrite <- !app_assoc.
  - intros f u Hin. cbn [logged fs]. apply Hall. right.
    unfold LIBRARIES in Hin. rewrite !elem_of_cons, elem_of_nil in Hin.
    rewrite !elem_of_cons.
    destruct Hin as [H|[H|[H|[H|[]]]]]; injection H as -> _; auto.
Qed.

Lemma cached_run_only_prints_witness :
  fs (snd (download_libs w_offline
             (run (download_libs w_ok) st_empty)))
    = fs (run (download_libs w_ok) st_empty).
Proof.
  rewrite (cached_run_only_prints w_offline
             (run (download_libs w_ok) st_empty)); [reflexivity|].
  intros p. rewrite !elem_of_cons, elem_of_nil.
  intros [->|[->|[->|[->|[->|[]]]]]]; reflexivity.
Defined.

(** X8.  A short write is never repaired: when the write of an entry
    raises after [k] bytes, the truncated file (the first [k] bytes of the
    body) is still at the target at the end of the run, and every later
    run of the fetch, in any world, finds the target present and skips the
    entry, leaving the truncated file in place. *)
Theorem truncated_file_is_never_repaired (w w2 : World)
    (pre post : list (string * string)) (filename url : string)
    (st0 : State) (r : Response) (k : nat) (msg : string) :
  let st := entering w pre st0 in
  let libs := pre ++ (filename, url) :: post in
  exists_in (fs st) (target filename) = false ->
  http_get w (count_gets (trace st)) url = Responds r ->
  status_code r = 200 ->
  open_fault w (target filename) = None ->
  write_fault w (target filename) (content r) = Some (k, msg) ->
  let final := run (fetch_all libs w) st0 in
  let st2 := entering w2 pre final in
  fs final !! target filename = Some (File (take k (content r))) /\
  process_entry w2 (filename, url) st2
    = (Ok tt, logged st2 [EPrint (filename +:+ " already exists. Skipping.")]) /\
  fs (run (fetch_all libs w2) final) !! target filename
    = Some (File (take k (content r))).
Proof.
  intros st libs Hex Hget Hs Ho Hw final st2.
  assert (Hfinal : fs final !! target filename
                     = Some (File (take k (content r)))).
  { pose proof (process_entry_write_raises w filename url st r k msg
                  Hex Hget Hs Ho Hw) as Hstep.
    unfold final, libs. unfold run at 1. rewrite fetch_all_split. fold st.
    unfold run at 1. rewrite Hstep. cbn [snd].
    match goal with
    | |- fs (snd (resume ?w ?post ?s)) !! _ = _ =>
        fold (run (resume w post) s)
    end.
    apply resume_keeps. simpl. apply lookup_insert_eq. }
  split; [exact Hfinal|]. split.
  - apply process_entry_skip. apply exists_in_true.
    eexists. apply entering_keeps. exact Hfinal.
  - by apply fetch_all_keeps.
Qed.

Lemma truncated_file_is_never_repaired_witness :
  fs (run (fetch_all LIBRARIES w_ok)
          (run (fetch_all LIBRARIES w_diskfull) st_libs)) !! "libs/react.js"
    = Some (File [Byte.x2f; Byte.x2f]).
Proof.
  apply (truncated_file_is_never_repaired w_diskfull w_ok [] after_react
           "react.js" react_url st_libs (mkResponse 200 sample_body) 2%nat
           "[Errno 28] No space left on device"); reflexivity.
Defined.

(** X9.  For an entry whose target is absent, the target exists once the
    loop body is done exactly when the GET answered 200 and [open]
    succeeded, whether or not the write then raised; an HTTP error, a
    transport error or a refused [open] leave the target absent. *)
Theorem target_exists_iff_opened (w : World) (filename url : string)
    (st : State) :
  exists_in (fs st) (target filename) = false ->
  (exists_in (fs (run (process_entry w (filename, url)) st))
             (target filename) = true <->
   exists r,
     http_get w (count_gets (trace st)) url = Responds r /\
     status_code r = 200 /\
     open_fault w (target filename) = None).
Proof.
  intros Hex.
  destruct (process_entry_sound w filename url st) as (st1 & Heq & Hstep).
  assert (Hrun : run (process_entry w (filename, url)) st = st1)
    by (unfold run; by rewrite Heq).
  rewrite Hrun. clear Hrun Heq.
  inversion Hstep as [Hex'|msg Hex' Hg|r Hex' Hg Hs|r msg Hex' Hg Hs Ho
                     |r k msg Hex' Hg Hs Ho Hw|r Hex' Hg Hs Ho Hw];
    subst st1; cbn [logged fs].
  - congruence.
  - rewrite Hex. split; [discriminate|]. intros (r & Hr & _). congruence.
  - rewrite Hex. split; [discriminate|].
    intros (r' & Hr & Hs' & _). congruence.
  - rewrite Hex. split; [discriminate|].
    intros (r' & Hr & _ & Ho'). congruence.
  - rewrite exists_in_insert. split; eauto.
  - rewrite exists_in_insert. split; eauto.
Qed.

Lemma target_exists_iff_opened_witness :
  exists_in (fs (run (process_entry w_diskfull ("react.js", react_url))
                     st_libs)) (target "react.js") = true.
Proof.
  apply (target_exists_iff_opened w_diskfull "react.js" react_url st_libs);
    [reflexivity|].
  exists (mkResponse 200 sample_body). repeat split; reflexivity.
Defined.



(** X11.  In a healthy world the script does its job: when the operating
    system refuses nothing and every GET answers 200, [download_libs]
    exits with status 0 and afterwards [libs] and the target of every
    entry of [LIBRARIES] exist, whatever was or was not there before. *)
Theorem healthy_world_fetches_everything (w : World) (st : State) :
  (forall p, makedirs_fault w p = None) ->
  (forall p, open_fault w p = None) ->
  (forall p d, write_fault w p d = None) ->
  (forall n u, exists r, http_get w n u = Responds r /\ status_code r = 200) ->
  fst (main w st) = 0 /\
  exists_in (fs (snd (main w st))) "libs" = true /\
  forall f u, (f, u) ∈ LIBRARIES ->
    exists_in (fs (snd (main w st))) (target f) = true.
Proof.
  intros Hmk Hopen Hwrite Hget.
  assert (Hdir : exists st1, ensure_directory w st = (Ok tt, st1) /\
                             exists_in (fs st1) "libs" = true).
  { destruct (exists_in (fs st) "libs") eqn:Hex.
    - exists st. split; [by apply ensure_directory_present|done].
    - eexists. rewrite ensure_directory_absent, Hmk by done.
      split; [reflexivity|]. apply exists_in_insert. }
  destruct Hdir as (st1 & Hdir & Hlibs).
  unfold main. rewrite download_libs_eq, Hdir, fetch_all_eq. cbn [fst snd].
  split; [reflexivity|]. split.
  - apply exists_in_true in Hlibs as [n Hn]. apply exists_in_true. exists n.
    cbn [logged fs]. by apply for_each_keeps.
  - intros f u Hin. apply exists_in_true. cbn [logged fs].
    generalize (logged st1 [starting]). revert Hin.
    generalize LIBRARIES. intros xs.
    induction xs as [|e xs IH]; intros Hin s; [inversion Hin|].
    rewrite run_for_each_cons.
    apply elem_of_cons in Hin as [<-|Hin]; [|by apply IH].
    assert (Hafter : is_Some (fs (run (process_entry w (f, u)) s)
                                !! target f)).
    { destruct (exists_in (fs s) (target f)) eqn:Hex.
      - apply exists_in_true in Hex as [n Hn]. exists n.
        by apply process_entry_keeps.
      - destruct (Hget (count_gets (trace s)) u) as (r & Hr & Hs).
        unfold run.
        rewrite (process_entry_saved w f u s r Hex Hr Hs
                   (Hopen _) (Hwrite _ _)).
        simpl. rewrite lookup_insert_eq. eauto. }
    destruct Hafter as [n Hn]. exists n. by apply for_each_keeps.
Qed.

Lemma healthy_world_fetches_everything_witness :
  fst (main w_ok st_empty) = 0 /\
  exists_in (fs (snd (main w_ok st_empty))) "libs" = true /\
  forall f u, (f, u) ∈ LIBRARIES ->
    exists_in (fs (snd (main w_ok st_empty))) (target f) = true.
Proof.
  apply (healthy_world_fetches_everything w_ok st_empty).
  - reflexivity.
  - reflexivity.
  - reflexivity.
  - intros n u. exists (mkResponse 200 sample_body). split; reflexivity.
Defined.

(** X12.  Without a 200 nothing reaches the disk: when no GET answers
    with status 200 (the network is down, or every answer is an error), a
    run of the fetch leaves the file system exactly as it was. *)
Theorem no_200_no_change (w : World) (libs : list (string * string))
    (st : State) :
  (forall n u r, http_get w n u = Responds r -> status_code r <> 200) ->
  fs (run (fetch_all libs w) st) = fs st.
Proof.
  intros Hno. apply map_eq. intros p.
  destruct (fs st !! p) as [n|] eqn:Hp.
  - by apply fetch_all_keeps.
  - destruct (fs (run (fetch_all libs w) st) !! p) as [nd|] eqn:Hafter;
      [|reflexivity].
    rewrite fetch_all_run_eq in Hafter. cbn [logged fs] in Hafter.
    destruct (for_each_created w libs (logged st [starting]) p nd Hp Hafter)
      as (f & u & n & r & k & _ & _ & Hr & Hs & _).
    by apply Hno in Hr.
Qed.

Lemma no_200_no_change_witness :
  fs (run (fetch_all LIBRARIES w_offline) st_libs) = fs st_libs.
Proof.
  apply (no_200_no_change w_offline LIBRARIES st_libs).
  intros n u r H. discriminate H.
Defined.
